(** * The authentication flow of [App] (src/app.tsx)

    A shallow embedding of the [App] component: its six [useState] cells
    together with the browser's [localStorage], the event handlers as
    state transformers, the mount effect, and [renderAuthFlow] with the
    callback props it hands to each step card. *)

From stdpp Require Import base option strings gmap fin_maps.

Open Scope string_scope.

(** ** Data *)

(** [UserResponse] as [handleLoginSuccess] uses it: [id] and
    [is_verified] (the import is annotated "Assuming UserResponse now
    includes is_verified"), next to the [email] of types.ts. *)
Module UserResponse.
Record t := mk { id : string; email : string; is_verified : bool }.
End UserResponse.

(** [type AuthFlowState = 'email_input' | 'choose_method' | ...]. *)
Inductive AuthFlowState :=
| email_input
| choose_method
| register_with_password
| login_with_password
| request_otp
| verify_otp
| authenticated.

(** [s === 'authenticated']. *)
Definition is_authenticated (s : AuthFlowState) : bool :=
  match s with
  | authenticated => true
  | _ => false
  end.

(** The six [useState] cells of [App], and the [localStorage] the
    handlers write through to.  [string | null] is [option string]. *)
Record AppState := mkApp {
  currentUserId : option string;
  isUserVerified : bool;
  lastAnalyzedDocumentId : option string;
  appError : option string;
  currentAuthFlowState : AuthFlowState;
  tempEmail : option string;
  localStorage : gmap string string
}.

(** The storage keys are imported from './constants', which is not among
    the sources; they are parameters of the development. *)
Class Constants := {
  LOCAL_STORAGE_USER_ID_KEY : string;
  LOCAL_STORAGE_USER_VERIFIED_KEY : string
}.

(** A handler is a state transformer; [h1 >>> h2] runs [h1] then [h2]. *)
Definition Handler := AppState -> AppState.

Definition andThen (h1 h2 : Handler) : Handler := fun st => h2 (h1 st).
Infix ">>>" := andThen (at level 61, left associativity).

(** ** JavaScript helpers *)

(** Truthiness of a [string | null]: [null] and [""] are falsy. *)
Definition truthy (o : option string) : bool :=
  match o with
  | Some (String _ _) => true
  | _ => false
  end.

(** The narrowing [if (!x) { ... return } ... x ...] performs: the value
    as a [string] when it is truthy. *)
Definition narrow (o : option string) : option string :=
  match o with
  | Some (String a s) => Some (String a s)
  | _ => None
  end.

(** [String(b)] on a boolean. *)
Definition String_of_boolean (b : bool) : string :=
  if b then "true" else "false".

(** [x === 'true'] on a [string | null]. *)
Definition is_true_literal (o : option string) : bool :=
  bool_decide (o = Some "true").

(** ** State setters and [localStorage] *)

Definition setCurrentUserId (v : option string) : Handler := fun st =>
  mkApp v (isUserVerified st) (lastAnalyzedDocumentId st) (appError st)
        (currentAuthFlowState st) (tempEmail st) (localStorage st).

Definition setIsUserVerified (v : bool) : Handler := fun st =>
  mkApp (currentUserId st) v (lastAnalyzedDocumentId st) (appError st)
        (currentAuthFlowState st) (tempEmail st) (localStorage st).

Definition setLastAnalyzedDocumentId (v : option string) : Handler := fun st =>
  mkApp (currentUserId st) (isUserVerified st) v (appError st)
        (currentAuthFlowState st) (tempEmail st) (localStorage st).

Definition setAppError (v : option string) : Handler := fun st =>
  mkApp (currentUserId st) (isUserVerified st) (lastAnalyzedDocumentId st) v
        (currentAuthFlowState st) (tempEmail st) (localStorage st).

Definition setCurrentAuthFlowState (v : AuthFlowState) : Handler := fun st =>
  mkApp (currentUserId st) (isUserVerified st) (lastAnalyzedDocumentId st)
        (appError st) v (tempEmail st) (localStorage st).

Definition setTempEmail (v : option string) : Handler := fun st =>
  mkApp (currentUserId st) (isUserVerified st) (lastAnalyzedDocumentId st)
        (appError st) (currentAuthFlowState st) v (localStorage st).

Definition localStorage_getItem (k : string) (st : AppState) : option string :=
  localStorage st !! k.

Definition localStorage_setItem (k v : string) : Handler := fun st =>
  mkApp (currentUserId st) (isUserVerified st) (lastAnalyzedDocumentId st)
        (appError st) (currentAuthFlowState st) (tempEmail st)
        (<[k := v]> (localStorage st)).

Definition localStorage_removeItem (k : string) : Handler := fun st =>
  mkApp (currentUserId st) (isUserVerified st) (lastAnalyzedDocumentId st)
        (appError st) (currentAuthFlowState st) (tempEmail st)
        (delete k (localStorage st)).

(** ** Props of the components [App] renders *)

Module EmailInputCard.
Record Props := mk {
  onEmailSubmitted : string -> Handler;
  onLoginError : string -> Handler
}.
End EmailInputCard.

Module AuthMethodChooserCard.
Record Props := mk {
  email : string;
  onChoosePassword : Handler;
  onChooseOtp : Handler;
  onBack : Handler;
  onLoginSuccess : UserResponse.t -> Handler;
  onLoginError : string -> Handler
}.
End AuthMethodChooserCard.

Module PasswordLoginCard.
Record Props := mk {
  email : string;
  onLoginSuccess : UserResponse.t -> Handler;
  onLoginError : string -> Handler;
  onBack : Handler
}.
End PasswordLoginCard.

Module OtpRequestCard.
Record Props := mk {
  email : string;
  onRequestSuccess : Handler;
  onRequestError : string -> Handler;
  onBack : Handler
}.
End OtpRequestCard.

Module OtpVerificationCard.
Record Props := mk {
  email : string;
  onVerificationSuccess : UserResponse.t -> Handler;
  onVerificationError : string -> Handler;
  onBack : Handler
}.
End OtpVerificationCard.

Module Sidebar.
Record Props := mk {
  currentUserId : option string;
  isUserVerified : bool;
  onLogout : Handler
}.
End Sidebar.

Module DocumentAnalyzerCard.
Record Props := mk {
  onDocumentAnalyzed : string -> Handler;
  onAnalysisError : string -> Handler;
  currentUserId : option string;
  isUserVerified : bool
}.
End DocumentAnalyzerCard.

Module DocumentHistoryTable.
Record Props := mk {
  currentUserId : option string;
  isUserVerified : bool;
  lastAnalyzedDocumentId : option string
}.
End DocumentHistoryTable.

(** What [renderAuthFlow] returns when it is not [null]. *)
Inductive AuthCard :=
| EmailInput (p : EmailInputCard.Props)
| AuthMethodChooser (p : AuthMethodChooserCard.Props)
| PasswordLogin (p : PasswordLoginCard.Props)
| OtpRequest (p : OtpRequestCard.Props)
| OtpVerification (p : OtpVerificationCard.Props).

(** The [<main>] of [App]: the auth-flow section or the two document
    sections. *)
Inductive MainContent :=
| AuthFlowSection (card : option AuthCard)
| DocumentSections (analyzer : DocumentAnalyzerCard.Props)
                   (history : DocumentHistoryTable.Props).

Record Screen := mkScreen {
  sidebar : Sidebar.Props;
  errorBanner : option string;
  main : MainContent
}.

(** The email a step card was given, if it takes one. *)
Definition card_email (c : AuthCard) : option string :=
  match c with
  | EmailInput _ => None
  | AuthMethodChooser p => Some (AuthMethodChooserCard.email p)
  | PasswordLogin p => Some (PasswordLoginCard.email p)
  | OtpRequest p => Some (OtpRequestCard.email p)
  | OtpVerification p => Some (OtpVerificationCard.email p)
  end.

(** The outcomes the step cards, the sidebar and the document card report
    through their callback props. *)
Inductive Event :=
| EmailSubmitted (email : string)
| ChoosePassword
| ChooseOtp
| Back
| LoginSucceeded (userData : UserResponse.t)
| LoginFailed (msg : string)
| RequestSucceeded
| RequestFailed (msg : string)
| VerificationSucceeded (userData : UserResponse.t)
| VerificationFailed (msg : string)
| Logout
| DocumentAnalyzed (documentId : string)
| AnalysisError (msg : string).

Section App.
Context `{Constants}.

(** [useState] initial values; [ls] is what the browser holds. *)
Definition initialState (ls : gmap string string) : AppState :=
  mkApp None false None None email_input None ls.

(** The [useEffect(() => { ... }, [])] of [App]. *)
Definition App_useEffect : Handler := fun st =>
  let storedUserId := localStorage_getItem LOCAL_STORAGE_USER_ID_KEY st in
  let storedVerifiedStatus :=
    localStorage_getItem LOCAL_STORAGE_USER_VERIFIED_KEY st in
  if truthy storedUserId then
    (setCurrentUserId storedUserId >>>
     setIsUserVerified (is_true_literal storedVerifiedStatus) >>>
     setCurrentAuthFlowState authenticated) st
  else
    setCurrentAuthFlowState email_input st.

(** Mounting [App] over a given [localStorage]. *)
Definition mount (ls : gmap string string) : AppState :=
  App_useEffect (initialState ls).

Definition handleLoginSuccess (userData : UserResponse.t) : Handler :=
  setCurrentUserId (Some (UserResponse.id userData)) >>>
  setIsUserVerified (UserResponse.is_verified userData) >>>
  localStorage_setItem LOCAL_STORAGE_USER_ID_KEY (UserResponse.id userData) >>>
  localStorage_setItem LOCAL_STORAGE_USER_VERIFIED_KEY
    (String_of_boolean (UserResponse.is_verified userData)) >>>
  setCurrentAuthFlowState authenticated >>>
  setAppError None.

Definition handleLogout : Handler :=
  setCurrentUserId None >>>
  setIsUserVerified false >>>
  localStorage_removeItem LOCAL_STORAGE_USER_ID_KEY >>>
  localStorage_removeItem LOCAL_STORAGE_USER_VERIFIED_KEY >>>
  setLastAnalyzedDocumentId None >>>
  setAppError None >>>
  setTempEmail None >>>
  setCurrentAuthFlowState email_input.

Definition handleDocumentAnalyzed (documentId : string) : Handler :=
  setLastAnalyzedDocumentId (Some documentId) >>>
  setAppError None.

Definition handleAnalysisError (error : string) : Handler :=
  setAppError (Some error).

Definition handleEmailSubmitted (email : string) : Handler :=
  setTempEmail (Some email) >>>
  setCurrentAuthFlowState choose_method >>>
  setAppError None.

(** [renderAuthFlow]: the state after the call (the guards call
    [setCurrentAuthFlowState] while rendering) and the card returned,
    [None] for [null]. *)
Definition renderAuthFlow (st : AppState) : AppState * option AuthCard :=
  match currentAuthFlowState st with
  | email_input =>
      (st, Some (EmailInput
         (EmailInputCard.mk handleEmailSubmitted handleAnalysisError)))
  | choose_method =>
      match narrow (tempEmail st) with
      | None => (setCurrentAuthFlowState email_input st, None)
      | Some tempEmail =>
          (st, Some (AuthMethodChooser
             (AuthMethodChooserCard.mk tempEmail
                (setCurrentAuthFlowState login_with_password)
                (setCurrentAuthFlowState request_otp)
                (setCurrentAuthFlowState email_input)
                handleLoginSuccess
                handleAnalysisError)))
      end
  | login_with_password =>
      match narrow (tempEmail st) with
      | None => (setCurrentAuthFlowState email_input st, None)
      | Some tempEmail =>
          (st, Some (PasswordLogin
             (PasswordLoginCard.mk tempEmail
                handleLoginSuccess
                handleAnalysisError
                (setCurrentAuthFlowState choose_method))))
      end
  | request_otp =>
      match narrow (tempEmail st) with
      | None => (setCurrentAuthFlowState email_input st, None)
      | Some tempEmail =>
          (st, Some (OtpRequest
             (OtpRequestCard.mk tempEmail
                (setCurrentAuthFlowState verify_otp)
                handleAnalysisError
                (setCurrentAuthFlowState choose_method))))
      end
  | verify_otp =>
      match narrow (tempEmail st) with
      | None => (setCurrentAuthFlowState email_input st, None)
      | Some tempEmail =>
          (st, Some (OtpVerification
             (OtpVerificationCard.mk tempEmail
                handleLoginSuccess
                handleAnalysisError
                (setCurrentAuthFlowState request_otp))))
      end
  | _ => (st, None)
  end.

(** The body of [App]: one render pass. *)
Definition App_render (st : AppState) : AppState * Screen :=
  let sidebar := Sidebar.mk (currentUserId st) (isUserVerified st) handleLogout in
  let banner := if truthy (appError st) then appError st else None in
  if negb (is_authenticated (currentAuthFlowState st)) then
    let '(st', card) := renderAuthFlow st in
    (st', mkScreen sidebar banner (AuthFlowSection card))
  else
    (st, mkScreen sidebar banner
       (DocumentSections
          (DocumentAnalyzerCard.mk handleDocumentAnalyzed handleAnalysisError
             (currentUserId st) (isUserVerified st))
          (DocumentHistoryTable.mk (currentUserId st) (isUserVerified st)
             (lastAnalyzedDocumentId st)))).

(** ** Events *)

(** The callback prop through which a card reports an event. *)
Definition card_callback (c : AuthCard) (ev : Event) : option Handler :=
  match c, ev with
  | EmailInput p, EmailSubmitted e => Some (EmailInputCard.onEmailSubmitted p e)
  | EmailInput p, LoginFailed msg => Some (EmailInputCard.onLoginError p msg)
  | AuthMethodChooser p, ChoosePassword =>
      Some (AuthMethodChooserCard.onChoosePassword p)
  | AuthMethodChooser p, ChooseOtp => Some (AuthMethodChooserCard.onChooseOtp p)
  | AuthMethodChooser p, Back => Some (AuthMethodChooserCard.onBack p)
  | AuthMethodChooser p, LoginSucceeded u =>
      Some (AuthMethodChooserCard.onLoginSuccess p u)
  | AuthMethodChooser p, LoginFailed msg =>
      Some (AuthMethodChooserCard.onLoginError p msg)
  | PasswordLogin p, LoginSucceeded u => Some (PasswordLoginCard.onLoginSuccess p u)
  | PasswordLogin p, LoginFailed msg => Some (PasswordLoginCard.onLoginError p msg)
  | PasswordLogin p, Back => Some (PasswordLoginCard.onBack p)
  | OtpRequest p, RequestSucceeded => Some (OtpRequestCard.onRequestSuccess p)
  | OtpRequest p, RequestFailed msg => Some (OtpRequestCard.onRequestError p msg)
  | OtpRequest p, Back => Some (OtpRequestCard.onBack p)
  | OtpVerification p, VerificationSucceeded u =>
      Some (OtpVerificationCard.onVerificationSuccess p u)
  | OtpVerification p, VerificationFailed msg =>
      Some (OtpVerificationCard.onVerificationError p msg)
  | OtpVerification p, Back => Some (OtpVerificationCard.onBack p)
  | _, _ => None
  end.

(** The callback on screen for an event, if any component offers one. *)
Definition dispatch (scr : Screen) (ev : Event) : option Handler :=
  match ev with
  | Logout => Some (Sidebar.onLogout (sidebar scr))
  | _ =>
      match main scr with
      | AuthFlowSection (Some c) => card_callback c ev
      | AuthFlowSection None => None
      | DocumentSections a _ =>
          match ev with
          | DocumentAnalyzed d => Some (DocumentAnalyzerCard.onDocumentAnalyzed a d)
          | AnalysisError msg => Some (DocumentAnalyzerCard.onAnalysisError a msg)
          | _ => None
          end
      end
  end.

(** The state once rendering has applied its guard. *)
Definition settle (st : AppState) : AppState := fst (App_render st).

(** What is on screen: a guard's [setCurrentAuthFlowState] schedules
    one more render, of the settled state. *)
Definition screen (st : AppState) : Screen := snd (App_render (settle st)).

(** One event: it reaches the callback on screen (an event no component
    on screen reports does nothing), the handler runs, [App] renders. *)
Definition step (st : AppState) (ev : Event) : AppState :=
  match dispatch (screen st) ev with
  | Some h => settle (h (settle st))
  | None => settle st
  end.

Definition run (st : AppState) (evs : list Event) : AppState :=
  fold_left step evs st.

(** ** Vocabulary of the specification *)

(** The identity a success outcome carries. *)
Definition success_identity (ev : Event) : option UserResponse.t :=
  match ev with
  | LoginSucceeded u | VerificationSucceeded u => Some u
  | _ => None
  end.


(** The failure outcome of each step that performs a request, with its
    message. *)
Definition failure_event (f : AuthFlowState) (ev : Event) : option string :=
  match f, ev with
  | login_with_password, LoginFailed msg => Some msg
  | request_otp, RequestFailed msg => Some msg
  | verify_otp, VerificationFailed msg => Some msg
  | _, _ => None
  end.

(** The steps [renderAuthFlow] guards with [if (!tempEmail)]. *)
Definition requires_email (f : AuthFlowState) : bool :=
  match f with
  | choose_method | login_with_password | request_otp | verify_otp => true
  | _ => false
  end.

(** The states reached from [st1] by events other than [Logout], as long
    as the flow has not come back to the email step. *)
Inductive threaded (st1 : AppState) : AppState -> Prop :=
| threaded_start : threaded st1 st1
| threaded_step st ev :
    threaded st1 st ->
    currentAuthFlowState st <> email_input ->
    ev <> Logout ->
    threaded st1 (step st ev).


(** Initialization, as the specification words it. *)
Definition initialization_as_stated : Prop :=
  (forall ls uid v,
      ls !! LOCAL_STORAGE_USER_ID_KEY = Some uid ->
      ls !! LOCAL_STORAGE_USER_VERIFIED_KEY = Some (String_of_boolean v) ->
      currentAuthFlowState (mount ls) = authenticated /\
      currentUserId (mount ls) = Some uid /\
      appError (mount ls) = None) /\
  currentAuthFlowState (mount ∅) = email_input.

(** What [handleLoginSuccess] leaves in [localStorage]. *)
Definition saved (userData : UserResponse.t) (st : AppState)
  : gmap string string :=
  localStorage (handleLoginSuccess userData st).

(** The SessionStore round trip, as the specification words it, over
    two distinct keys. *)
Definition round_trip_as_stated : Prop :=
  LOCAL_STORAGE_USER_ID_KEY <> LOCAL_STORAGE_USER_VERIFIED_KEY ->
  (forall u st,
      saved u st !! LOCAL_STORAGE_USER_VERIFIED_KEY
      = Some (String_of_boolean (UserResponse.is_verified u)) /\
      currentUserId (mount (saved u st)) = Some (UserResponse.id u) /\
      isUserVerified (mount (saved u st)) = UserResponse.is_verified u) /\
  (forall ls,
      ls !! LOCAL_STORAGE_USER_ID_KEY = None ->
      isUserVerified (mount ls) = false).

(** Strict parsing of the verified flag, as the specification words
    it. *)
Definition strict_flag_as_stated : Prop :=
  forall ls,
    is_Some (ls !! LOCAL_STORAGE_USER_ID_KEY) ->
    (isUserVerified (mount ls) = true
     <-> ls !! LOCAL_STORAGE_USER_VERIFIED_KEY = Some "true").

End App.

(** Key names to run the definitions on; any two distinct keys behave
    alike. *)
Definition example_keys : Constants :=
  {| LOCAL_STORAGE_USER_ID_KEY := "userId";
     LOCAL_STORAGE_USER_VERIFIED_KEY := "userVerified" |}.

(** States and identities to run the definitions on. *)
Definition alice : UserResponse.t :=
  UserResponse.mk "alice@example.com" "alice@example.com" true.

Definition nameless : UserResponse.t := UserResponse.mk "" "" true.

Definition fresh : AppState := initialState ∅.

Definition password_step : AppState :=
  mkApp None false None None login_with_password (Some "x@y.com") ∅.

Definition otp_step_after_failure : AppState :=
  mkApp None false None (Some "Too many requests") request_otp
        (Some "a@b.com") ∅.

Definition verify_step_without_email : AppState :=
  mkApp None false None None verify_otp None ∅.

Definition signed_in : AppState :=
  mkApp (Some "alice@example.com") true (Some "doc-1") (Some "analysis failed")
        authenticated (Some "alice@example.com")
        {[ "userId" := "alice@example.com"; "userVerified" := "true" ]}.

Definition stored_empty_id : gmap string string :=
  {[ "userId" := ""; "userVerified" := "true" ]}.

Definition stored_shouting_flag : gmap string string :=
  {[ "userId" := "alice@example.com"; "userVerified" := "TRUE" ]}.

(** ** Reachable states *)

Section Reachable.
Context `{Constants}.


(** The flow states the inline arrow callbacks of [renderAuthFlow] set. *)
Definition navigation_target (f : AuthFlowState) : bool :=
  match f with
  | login_with_password | request_otp | email_input | choose_method
  | verify_otp => true
  | _ => false
  end.

(** Every callback [App] hands to a component, for whatever argument the
    component calls it with. *)
Inductive callback : Handler -> Prop :=
| callback_handleEmailSubmitted email : callback (handleEmailSubmitted email)
| callback_handleAnalysisError error : callback (handleAnalysisError error)
| callback_handleLoginSuccess userData : callback (handleLoginSuccess userData)
| callback_handleLogout : callback handleLogout
| callback_handleDocumentAnalyzed documentId :
    callback (handleDocumentAnalyzed documentId)
| callback_setCurrentAuthFlowState f :
    navigation_target f = true -> callback (setCurrentAuthFlowState f).

(** Every state [App] can be in after mounting over [ls]: callbacks run
    in any order and at any time, also those of a card that has left the
    screen; a render applies its guard; the mount effect may run again. *)
Inductive reachable (ls : gmap string string) : AppState -> Prop :=
| reachable_mount : reachable ls (mount ls)
| reachable_effect st : reachable ls st -> reachable ls (App_useEffect st)
| reachable_callback st h :
    reachable ls st -> callback h -> reachable ls (h st)
| reachable_render st : reachable ls st -> reachable ls (settle st).

(** ** The reads of the mount effect *)

(** A computation that logs the keys it passes to
    [localStorage.getItem], in order. *)
Definition Logged (A : Type) : Type := list string -> A * list string.

Definition ret_logged {A} (a : A) : Logged A := fun log => (a, log).

Definition bind_logged {A B} (m : Logged A) (k : A -> Logged B) : Logged B :=
  fun log => let '(a, log') := m log in k a log'.

Definition getItem_logged (k : string) (st : AppState) : Logged (option string) :=
  fun log => (localStorage_getItem k st, (log ++ [k])%list).

(** The mount effect again, statement by statement, with its two
    [getItem] calls logged. *)
Definition App_useEffect_logged (st : AppState) : Logged AppState :=
  bind_logged (getItem_logged LOCAL_STORAGE_USER_ID_KEY st)
    (fun storedUserId =>
  bind_logged (getItem_logged LOCAL_STORAGE_USER_VERIFIED_KEY st)
    (fun storedVerifiedStatus =>
  ret_logged
    (if truthy storedUserId then
       (setCurrentUserId storedUserId >>>
        setIsUserVerified (is_true_literal storedVerifiedStatus) >>>
        setCurrentAuthFlowState authenticated) st
     else
       setCurrentAuthFlowState email_input st))).

(** React runs an effect whose dependency list is empty once per mount.
    The entry point renders [<React.StrictMode><App /></React.StrictMode>],
    under which a development build runs it a second time. *)
Inductive Build := production | development.

Definition effect_runs (b : Build) : nat :=
  match b with
  | production => 1
  | development => 2
  end.

Fixpoint run_effect (n : nat) (st : AppState) : Logged AppState :=
  match n with
  | 0 => ret_logged st
  | S n => bind_logged (App_useEffect_logged st) (run_effect n)
  end.

(** Mounting in a given build: the state when the effect has run, and the
    keys read. *)
Definition mount_logged (b : Build) (ls : gmap string string)
  : AppState * list string :=
  run_effect (effect_runs b) (initialState ls) [].

(** What holds along the events of the components on screen: outside
    the authenticated state there is no identity, no verified flag and no
    analysed document; inside it there is an identity.  The flow is never
    at [register_with_password]. *)
Definition flow_invariant (st : AppState) : Prop :=
  currentAuthFlowState st <> register_with_password /\
  if is_authenticated (currentAuthFlowState st) then
    is_Some (currentUserId st)
  else
    currentUserId st = None /\
    isUserVerified st = false /\
    lastAnalyzedDocumentId st = None.

End Reachable.

(** ** The earlier [App] (second listing of src/app.tsx)

    The single-step version: three [useState] cells, a mount effect that
    reads the stored identifier, and a register/login card shown while
    [currentUserId] is falsy. *)
Module LegacyApp.

Record AppState := mkApp {
  currentUserId : option string;
  lastAnalyzedDocumentId : option string;
  appError : option string;
  localStorage : gmap string string
}.

Definition Handler := AppState -> AppState.

Definition setCurrentUserId (v : option string) : Handler := fun st =>
  mkApp v (lastAnalyzedDocumentId st) (appError st) (localStorage st).

Definition setLastAnalyzedDocumentId (v : option string) : Handler := fun st =>
  mkApp (currentUserId st) v (appError st) (localStorage st).

Definition setAppError (v : option string) : Handler := fun st =>
  mkApp (currentUserId st) (lastAnalyzedDocumentId st) v (localStorage st).

Definition localStorage_getItem (k : string) (st : AppState) : option string :=
  localStorage st !! k.

Module RegisterLoginCard.
Record Props := mk {
  onLoginSuccess : string -> Handler;
  onLoginError : string -> Handler
}.
End RegisterLoginCard.

Module Sidebar.
Record Props := mk {
  currentUserId : option string;
  onLogout : Handler
}.
End Sidebar.

Module DocumentAnalyzerCard.
Record Props := mk {
  onDocumentAnalyzed : string -> Handler;
  onAnalysisError : string -> Handler;
  currentUserId : option string
}.
End DocumentAnalyzerCard.

Module DocumentHistoryTable.
Record Props := mk {
  currentUserId : option string;
  lastAnalyzedDocumentId : option string
}.
End DocumentHistoryTable.

Inductive MainContent :=
| RegisterLoginSection (card : RegisterLoginCard.Props)
| DocumentSections (analyzer : DocumentAnalyzerCard.Props)
                   (history : DocumentHistoryTable.Props).

Record Screen := mkScreen {
  sidebar : Sidebar.Props;
  errorBanner : option string;
  main : MainContent
}.

(** What the register/login card, the sidebar and the document card
    report. *)
Inductive Event :=
| LoginSucceeded (userId : string)
| LoginFailed (msg : string)
| Logout
| DocumentAnalyzed (documentId : string)
| AnalysisError (msg : string).

Section Defs.
Context `{Constants}.

Definition initialState (ls : gmap string string) : AppState :=
  mkApp None None None ls.

(** The [useEffect(() => { ... }, [])] of the earlier [App]. *)
Definition App_useEffect : Handler := fun st =>
  let storedUserId := localStorage_getItem LOCAL_STORAGE_USER_ID_KEY st in
  if truthy storedUserId then setCurrentUserId storedUserId st else st.

Definition mount (ls : gmap string string) : AppState :=
  App_useEffect (initialState ls).

Definition handleDocumentAnalyzed (documentId : string) : Handler := fun st =>
  let st := setLastAnalyzedDocumentId (Some documentId) st in
  setAppError None st.

Definition handleAnalysisError (error : string) : Handler :=
  setAppError (Some error).

Definition handleLoginSuccess (userId : string) : Handler := fun st =>
  let st := setCurrentUserId (Some userId) st in
  setAppError None st.

Definition handleLogout : Handler := fun st =>
  let st := setCurrentUserId None st in
  let st := setAppError None st in
  setLastAnalyzedDocumentId None st.

(** The body of the earlier [App]; it sets no state while rendering. *)
Definition App_render (st : AppState) : Screen :=
  mkScreen
    (Sidebar.mk (currentUserId st) handleLogout)
    (if truthy (appError st) then appError st else None)
    (if negb (truthy (currentUserId st)) then
       RegisterLoginSection
         (RegisterLoginCard.mk handleLoginSuccess handleAnalysisError)
     else
       DocumentSections
         (DocumentAnalyzerCard.mk handleDocumentAnalyzed handleAnalysisError
            (currentUserId st))
         (DocumentHistoryTable.mk (currentUserId st)
            (lastAnalyzedDocumentId st))).

Definition dispatch (scr : Screen) (ev : Event) : option Handler :=
  match ev, main scr with
  | Logout, _ => Some (Sidebar.onLogout (sidebar scr))
  | LoginSucceeded userId, RegisterLoginSection p =>
      Some (RegisterLoginCard.onLoginSuccess p userId)
  | LoginFailed msg, RegisterLoginSection p =>
      Some (RegisterLoginCard.onLoginError p msg)
  | DocumentAnalyzed d, DocumentSections a _ =>
      Some (DocumentAnalyzerCard.onDocumentAnalyzed a d)
  | AnalysisError msg, DocumentSections a _ =>
      Some (DocumentAnalyzerCard.onAnalysisError a msg)
  | _, _ => None
  end.

Definition step (st : AppState) (ev : Event) : AppState :=
  match dispatch (App_render st) ev with
  | Some h => h st
  | None => st
  end.

Definition run (st : AppState) (evs : list Event) : AppState :=
  fold_left step evs st.

End Defs.

End LegacyApp.

(** A store as the earlier [App]'s era left it: the identifier alone. *)
Definition stored_legacy_session : gmap string string :=
  {[ "userId" := "bob@example.com" ]}.


Definition verify_step : AppState :=
  mkApp None false None (Some "code expired") verify_otp (Some "a@b.com") ∅.

(** * Properties *)

Section Render.
Context `{Constants}.

Lemma narrow_truthy o : truthy o = true <-> is_Some (narrow o).
Proof.
  destruct o as [[|a s]|]; simpl; split; intros Hx;
    try discriminate; try (by eexists); by destruct Hx.
Qed.

Lemma narrow_Some o e : narrow o = Some e -> o = Some e /\ e <> "".
Proof. destruct o as [[|a s]|]; simpl; intros [= <-]; done. Qed.

Lemma narrow_None o : narrow o = None <-> o = None \/ o = Some "".
Proof.
  destruct o as [[|a s]|]; simpl; split; try done; auto.
  intros [|]; done.
Qed.

(** Rendering changes nothing but the flow state. *)
Lemma renderAuthFlow_frame st :
  fst (renderAuthFlow st)
  = setCurrentAuthFlowState (currentAuthFlowState (fst (renderAuthFlow st))) st.
Proof.
  destruct st as [u v d e f t ls]. unfold renderAuthFlow; simpl.
  destruct f; simpl; try done; destruct (narrow t); done.
Qed.

Lemma settle_email_input st :
  currentAuthFlowState st = email_input -> settle st = st.
Proof.
  destruct st as [u v d e f t ls]; simpl; intros ->. reflexivity.
Qed.

Lemma settle_authenticated st :
  currentAuthFlowState st = authenticated -> settle st = st.
Proof.
  destruct st as [u v d e f t ls]; simpl; intros ->. reflexivity.
Qed.

Lemma settle_with_email st e :
  narrow (tempEmail st) = Some e -> settle st = st.
Proof.
  destruct st as [u v d er f t ls]; simpl; intros Ht.
  unfold settle, App_render, renderAuthFlow; simpl.
  destruct f; simpl; try done; rewrite Ht; done.
Qed.

Lemma settle_idem st : settle (settle st) = settle st.
Proof.
  destruct st as [u v d er f t ls].
  unfold settle, App_render, renderAuthFlow; simpl.
  destruct f; simpl; try done; destruct (narrow t) eqn:Ht; simpl; try done;
    rewrite Ht; done.
Qed.

Lemma step_settled st ev : settle (step st ev) = step st ev.
Proof. unfold step. destruct (dispatch _ _); apply settle_idem. Qed.

Lemma settle_tempEmail st : tempEmail (settle st) = tempEmail st.
Proof.
  unfold settle, App_render.
  destruct (negb _); [|done].
  rewrite (surjective_pairing (renderAuthFlow st)); simpl.
  rewrite renderAuthFlow_frame. done.
Qed.

End Render.

Section Flow.
Context `{Constants}.

(** ** Handlers *)

Lemma handleAnalysisError_spec error st :
  handleAnalysisError error st = setAppError (Some error) st /\
  currentAuthFlowState (handleAnalysisError error st) = currentAuthFlowState st /\
  tempEmail (handleAnalysisError error st) = tempEmail st /\
  appError (handleAnalysisError error st) = Some error.
Proof. done. Qed.

Lemma handleLoginSuccess_spec u st :
  currentAuthFlowState (handleLoginSuccess u st) = authenticated /\
  currentUserId (handleLoginSuccess u st) = Some (UserResponse.id u) /\
  isUserVerified (handleLoginSuccess u st) = UserResponse.is_verified u /\
  appError (handleLoginSuccess u st) = None /\
  tempEmail (handleLoginSuccess u st) = tempEmail st.
Proof. done. Qed.

(** The callbacks a rendered card holds are the handlers of [App],
    whatever the state it was rendered in. *)
Lemma rendered_callback st c ev k :
  snd (renderAuthFlow st) = Some c ->
  card_callback c ev = Some k ->
  match ev with
  | EmailSubmitted e =>
      k = handleEmailSubmitted e /\ currentAuthFlowState st = email_input
  | ChoosePassword => k = setCurrentAuthFlowState login_with_password
  | ChooseOtp => k = setCurrentAuthFlowState request_otp
  | Back =>
      k = setCurrentAuthFlowState
            match currentAuthFlowState st with
            | choose_method => email_input
            | verify_otp => request_otp
            | _ => choose_method
            end
  | LoginSucceeded u | VerificationSucceeded u => k = handleLoginSuccess u
  | LoginFailed msg | RequestFailed msg | VerificationFailed msg =>
      k = handleAnalysisError msg
  | RequestSucceeded => k = setCurrentAuthFlowState verify_otp
  | _ => False
  end.
Proof.
  unfold renderAuthFlow.
  destruct (currentAuthFlowState st); simpl;
    try destruct (narrow (tempEmail st)); simpl; intros [= <-];
    destruct ev; simpl; intros [= <-]; done.
Qed.

(** What is on screen in a settled state is what one render of it
    gives. *)
Lemma screen_settled st : settle st = st -> screen st = snd (App_render st).
Proof. unfold screen. by intros ->. Qed.

Lemma dispatch_card st ev k :
  ev <> Logout ->
  dispatch (snd (App_render st)) ev = Some k ->
  (currentAuthFlowState st <> authenticated /\
   exists c, snd (renderAuthFlow st) = Some c /\ card_callback c ev = Some k) \/
  (currentAuthFlowState st = authenticated /\
   match ev with
   | DocumentAnalyzed d => k = handleDocumentAnalyzed d
   | AnalysisError msg => k = handleAnalysisError msg
   | _ => False
   end).
Proof.
  intros Hev. unfold App_render.
  destruct (is_authenticated (currentAuthFlowState st)) eqn:Hf; simpl.
  - assert (currentAuthFlowState st = authenticated) as Hf'
      by (by destruct (currentAuthFlowState st)).
    destruct ev; try done; intros [= <-]; right; done.
  - assert (currentAuthFlowState st <> authenticated) as Hf'
      by (by destruct (currentAuthFlowState st)).
    destruct (renderAuthFlow st) as [st' [c|]] eqn:Hr; simpl.
    + destruct ev; try done; intros Hk; left; split; try done; by exists c.
    + destruct ev; done.
Qed.

(** The sidebar is rendered in every state, with [handleLogout]. *)
Lemma logout_on_screen st : dispatch (screen st) Logout = Some handleLogout.
Proof.
  unfold screen, App_render; simpl.
  destruct (negb _); [destruct (renderAuthFlow _)|]; done.
Qed.

Lemma step_Logout st : step st Logout = handleLogout (settle st).
Proof.
  unfold step. rewrite logout_on_screen. by apply settle_email_input.
Qed.

(** C4. From the authenticated state, with whatever identity, carried
    email, error and last analysed document it holds, [Logout] leads to
    the email step with the identity, the verified flag, the carried
    email, the error and the document context cleared, and both
    [localStorage] keys removed. *)
Theorem logout_clears_everything st uid :
  currentAuthFlowState st = authenticated ->
  currentUserId st = Some uid ->
  let st' := step st Logout in
  st' = handleLogout st /\
  currentAuthFlowState st' = email_input /\
  currentUserId st' = None /\
  isUserVerified st' = false /\
  tempEmail st' = None /\
  appError st' = None /\
  lastAnalyzedDocumentId st' = None /\
  localStorage st' !! LOCAL_STORAGE_USER_ID_KEY = None /\
  localStorage st' !! LOCAL_STORAGE_USER_VERIFIED_KEY = None.
Proof.
  intros Hf _ st'. subst st'.
  rewrite step_Logout, (settle_authenticated st Hf).
  repeat split; simpl.
  - destruct (decide (LOCAL_STORAGE_USER_ID_KEY = LOCAL_STORAGE_USER_VERIFIED_KEY)) as [->|Hne].
    + apply lookup_delete_eq.
    + rewrite lookup_delete_ne by done. apply lookup_delete_eq.
  - apply lookup_delete_eq.
Qed.

(** C5. In each of the four steps that need the carried email, a render
    with [tempEmail = null] returns nothing, moves the flow to the email
    step and touches nothing else: the error and its banner are as they
    were, and the next render shows the email card. *)
Theorem guard_recovers_to_email_input st :
  requires_email (currentAuthFlowState st) = true ->
  tempEmail st = None ->
  renderAuthFlow st = (setCurrentAuthFlowState email_input st, None) /\
  settle st = setCurrentAuthFlowState email_input st /\
  currentAuthFlowState (settle st) = email_input /\
  appError (settle st) = appError st /\
  errorBanner (screen st) = errorBanner (snd (App_render st)) /\
  main (screen st)
  = AuthFlowSection
      (Some (EmailInput (EmailInputCard.mk handleEmailSubmitted handleAnalysisError))).
Proof.
  destruct st as [u v d e f t ls]; simpl; intros Hf ->.
  destruct f; try discriminate Hf; done.
Qed.

(** C7. In the password, OTP-request and OTP-verification steps the
    failure outcome reaches [handleAnalysisError]: the flow stays on the
    step, the carried email is kept, and the error is the message as
    received. *)
Theorem failure_keeps_step st ev msg :
  failure_event (currentAuthFlowState st) ev = Some msg ->
  is_Some (narrow (tempEmail st)) ->
  dispatch (screen st) ev = Some (handleAnalysisError msg) /\
  step st ev = setAppError (Some msg) st /\
  currentAuthFlowState (step st ev) = currentAuthFlowState st /\
  tempEmail (step st ev) = tempEmail st /\
  appError (step st ev) = Some msg.
Proof.
  destruct st as [u v d e f [[|a s]|] ls]; simpl;
    intros Hev [em Hem]; try discriminate Hem.
  destruct f, ev; try discriminate Hev; injection Hev as ->;
    repeat split; reflexivity.
Qed.

(** C9. Submitting the empty string stores it as the carried email and
    moves to the method chooser, whose render takes the empty string
    for a missing email: it returns nothing and goes back to the email
    step.  No step card is ever rendered with an empty email. *)
Theorem empty_email_resets st :
  let st1 := handleEmailSubmitted "" st in
  tempEmail st1 = Some "" /\
  currentAuthFlowState st1 = choose_method /\
  renderAuthFlow st1 = (setCurrentAuthFlowState email_input st1, None) /\
  renderAuthFlow (setTempEmail None st1)
  = (setCurrentAuthFlowState email_input (setTempEmail None st1), None) /\
  (currentAuthFlowState st = email_input ->
   currentAuthFlowState (step st (EmailSubmitted "")) = email_input /\
   tempEmail (step st (EmailSubmitted "")) = Some "") /\
  (forall st2 c, snd (renderAuthFlow st2) = Some c -> card_email c <> Some "").
Proof.
  intros st1. do 4 (split; [done|]). split.
  - destruct st as [u v d e f t ls]; simpl; intros ->. done.
  - intros st2 c. unfold renderAuthFlow.
    destruct (currentAuthFlowState st2); simpl; try done;
      destruct (narrow (tempEmail st2)) eqn:Hn; simpl; try done;
      intros [= <-]; simpl; intros [= ->];
      by destruct (narrow_Some _ _ Hn).
Qed.

(** An event other than [Logout], outside the email step, leaves the
    carried email alone. *)
Lemma step_keeps_tempEmail st ev :
  settle st = st ->
  currentAuthFlowState st <> email_input ->
  ev <> Logout ->
  tempEmail (step st ev) = tempEmail st.
Proof.
  intros Hs Hf Hev. unfold step.
  destruct (dispatch (screen st) ev) as [k|] eqn:Hd;
    rewrite settle_tempEmail; [|done].
  rewrite Hs. rewrite (screen_settled st Hs) in Hd.
  destruct (dispatch_card st ev k Hev Hd) as [(_ & c & Hc & Hk)|[_ Hk]].
  - pose proof (rendered_callback st c ev k Hc Hk) as Hcb.
    destruct ev; try done; try (by rewrite Hcb).
    by destruct Hcb.
  - destruct ev; try done; by rewrite Hk.
Qed.

Lemma threaded_settled st1 st :
  settle st1 = st1 -> threaded st1 st -> settle st = st.
Proof. intros Hs1 Ht. destruct Ht; [done|apply step_settled]. Qed.

(** C6. After [EmailSubmitted e] in the email step, every state reached
    by further events carries [tempEmail = e], for as long as no
    [Logout] occurs and the flow has not returned to the email step: no
    transition in between writes to [tempEmail]. *)
Theorem email_threading e st0 st :
  currentAuthFlowState st0 = email_input ->
  threaded (step st0 (EmailSubmitted e)) st ->
  tempEmail st = Some e.
Proof.
  intros Hf0 Ht. induction Ht as [|st ev Ht IH Hf Hev].
  - destruct st0 as [u v d er f t ls]; simpl in Hf0; subst f.
    unfold step; simpl. by rewrite settle_tempEmail.
  - rewrite step_keeps_tempEmail; try done.
    eapply threaded_settled; [apply step_settled|done].
Qed.


(** ** Success outcomes and the error *)

(** [handleEmailSubmitted], [handleLoginSuccess] and
    [handleDocumentAnalyzed] all end with [setAppError(null)]. *)
Lemma success_handlers_clear_error st :
  (forall e, appError (handleEmailSubmitted e st) = None) /\
  (forall u, appError (handleLoginSuccess u st) = None) /\
  (forall d, appError (handleDocumentAnalyzed d st) = None).
Proof. done. Qed.

(** C2 (what the code does). In the OTP-request step,
    [RequestSucceeded] runs [() => setCurrentAuthFlowState('verify_otp')]
    and nothing else: the flow moves to the verification step and the
    error is what it was. *)
Theorem request_success_keeps_error st e :
  currentAuthFlowState st = request_otp ->
  narrow (tempEmail st) = Some e ->
  step st RequestSucceeded = setCurrentAuthFlowState verify_otp st /\
  currentAuthFlowState (step st RequestSucceeded) = verify_otp /\
  appError (step st RequestSucceeded) = appError st.
Proof.
  destruct st as [u v d er f [[|a s]|] ls]; simpl;
    intros -> Hn; try discriminate Hn.
  repeat split; reflexivity.
Qed.

End Flow.

Section Session.
Context `{Constants}.

Lemma is_true_literal_spec o : is_true_literal o = true <-> o = Some "true".
Proof. unfold is_true_literal. apply bool_decide_eq_true. Qed.

Lemma String_of_boolean_is_true b :
  is_true_literal (Some (String_of_boolean b)) = b.
Proof. by destruct b. Qed.

(** The mount effect, by cases on the stored identifier. *)
Lemma mount_truthy ls :
  truthy (ls !! LOCAL_STORAGE_USER_ID_KEY) = true ->
  mount ls
  = mkApp (ls !! LOCAL_STORAGE_USER_ID_KEY)
          (is_true_literal (ls !! LOCAL_STORAGE_USER_VERIFIED_KEY))
          None None authenticated None ls.
Proof.
  intros Ht. unfold mount, App_useEffect, localStorage_getItem; simpl.
  by rewrite Ht.
Qed.

Lemma mount_falsy ls :
  truthy (ls !! LOCAL_STORAGE_USER_ID_KEY) = false ->
  mount ls = initialState ls.
Proof.
  intros Ht. unfold mount, App_useEffect, localStorage_getItem; simpl.
  by rewrite Ht.
Qed.

Lemma truthy_nonempty o uid : o = Some uid -> uid <> "" -> truthy o = true.
Proof. intros -> Hne. by destruct uid. Qed.

(** The logged effect is the effect, and one run reads the identifier
    key and then the verified key, once each. *)
Lemma App_useEffect_logged_spec st log :
  App_useEffect_logged st log
  = (App_useEffect st,
     (log ++ [LOCAL_STORAGE_USER_ID_KEY; LOCAL_STORAGE_USER_VERIFIED_KEY])%list).
Proof.
  unfold App_useEffect_logged, bind_logged, getItem_logged, ret_logged,
    App_useEffect.
  by rewrite <- app_assoc.
Qed.

(** A second run of the effect changes nothing. *)
Lemma App_useEffect_again st : App_useEffect (App_useEffect st) = App_useEffect st.
Proof.
  destruct st as [u v d e f t ls].
  cbv [App_useEffect localStorage_getItem andThen setCurrentUserId
       setIsUserVerified setCurrentAuthFlowState currentUserId isUserVerified
       lastAnalyzedDocumentId appError currentAuthFlowState tempEmail
       localStorage].
  destruct (truthy (ls !! LOCAL_STORAGE_USER_ID_KEY)) eqn:Ht;
    cbv [currentUserId isUserVerified lastAnalyzedDocumentId appError
         currentAuthFlowState tempEmail localStorage]; by rewrite Ht.
Qed.

(** C3 (as the code has it). One run of the mount effect reads the
    identifier key and the verified key once each.  A production build
    runs the effect once, so each key is read exactly once; under the
    entry point's [React.StrictMode] a development build runs it a second
    time, reading both keys again, and ends in the same state.  With a
    non-empty stored identifier the flow starts authenticated, with
    that identifier as [currentUserId] and no error; with the
    identifier key absent or holding the empty string it starts at the
    email step. *)
Theorem initialization ls :
  (forall uid,
      ls !! LOCAL_STORAGE_USER_ID_KEY = Some uid ->
      uid <> "" ->
      currentAuthFlowState (mount ls) = authenticated /\
      currentUserId (mount ls) = Some uid /\
      isUserVerified (mount ls)
      = is_true_literal (ls !! LOCAL_STORAGE_USER_VERIFIED_KEY) /\
      appError (mount ls) = None) /\
  (ls !! LOCAL_STORAGE_USER_ID_KEY = None \/
   ls !! LOCAL_STORAGE_USER_ID_KEY = Some "" ->
   currentAuthFlowState (mount ls) = email_input /\
   currentUserId (mount ls) = None /\
   appError (mount ls) = None) /\
  (forall b, fst (mount_logged b ls) = mount ls) /\
  snd (mount_logged production ls)
  = [LOCAL_STORAGE_USER_ID_KEY; LOCAL_STORAGE_USER_VERIFIED_KEY] /\
  snd (mount_logged development ls)
  = [LOCAL_STORAGE_USER_ID_KEY; LOCAL_STORAGE_USER_VERIFIED_KEY;
     LOCAL_STORAGE_USER_ID_KEY; LOCAL_STORAGE_USER_VERIFIED_KEY].
Proof.
  split; [|split].
  - intros uid Hid Hne.
    rewrite mount_truthy by (by eapply truthy_nonempty). by rewrite Hid.
  - intros Hid. rewrite mount_falsy; [done|]. by destruct Hid as [-> | ->].
  - unfold mount_logged. split; [intros b; destruct b|split]; simpl;
      unfold bind_logged, ret_logged;
      rewrite ?App_useEffect_logged_spec; simpl; try done.
    apply App_useEffect_again.
Qed.

(** C8 (as the code has it). [handleLoginSuccess] stores the verified
    flag as the string ["true"] or ["false"]; when the identifier is
    not the empty string, mounting over what was stored gives back the
    identifier and the flag.  With the identifier key absent, the
    verified flag after mounting is false whatever the flag key holds. *)
Theorem session_round_trip u st :
  LOCAL_STORAGE_USER_ID_KEY <> LOCAL_STORAGE_USER_VERIFIED_KEY ->
  UserResponse.id u <> "" ->
  saved u st !! LOCAL_STORAGE_USER_VERIFIED_KEY
  = Some (String_of_boolean (UserResponse.is_verified u)) /\
  saved u st !! LOCAL_STORAGE_USER_ID_KEY = Some (UserResponse.id u) /\
  currentAuthFlowState (mount (saved u st)) = authenticated /\
  currentUserId (mount (saved u st)) = Some (UserResponse.id u) /\
  isUserVerified (mount (saved u st)) = UserResponse.is_verified u /\
  (forall ls,
      ls !! LOCAL_STORAGE_USER_ID_KEY = None ->
      isUserVerified (mount ls) = false /\ currentUserId (mount ls) = None).
Proof.
  intros Hk Hid.
  assert (saved u st !! LOCAL_STORAGE_USER_VERIFIED_KEY
          = Some (String_of_boolean (UserResponse.is_verified u))) as Hv
    by (unfold saved; simpl; apply lookup_insert_eq).
  assert (saved u st !! LOCAL_STORAGE_USER_ID_KEY = Some (UserResponse.id u))
    as Hi.
  { unfold saved; simpl. rewrite lookup_insert_ne by done.
    apply lookup_insert_eq. }
  do 2 (split; [done|]).
  rewrite mount_truthy by (by eapply truthy_nonempty); simpl.
  rewrite Hv, Hi, String_of_boolean_is_true.
  do 3 (split; [done|]).
  intros ls Hnone. rewrite mount_falsy by (by rewrite Hnone). done.
Qed.

(** C10 (as the code has it). With a non-empty stored identifier,
    [isUserVerified] after mounting is true exactly when the flag key
    holds the string ["true"]; and in every case a true [isUserVerified]
    comes from a stored ["true"] next to a non-empty identifier, so no
    other stored data grants verified status. *)
Theorem strict_verified_flag ls :
  (forall uid,
      ls !! LOCAL_STORAGE_USER_ID_KEY = Some uid ->
      uid <> "" ->
      (isUserVerified (mount ls) = true
       <-> ls !! LOCAL_STORAGE_USER_VERIFIED_KEY = Some "true")) /\
  (isUserVerified (mount ls) = true ->
   ls !! LOCAL_STORAGE_USER_VERIFIED_KEY = Some "true" /\
   truthy (ls !! LOCAL_STORAGE_USER_ID_KEY) = true).
Proof.
  split.
  - intros uid Hid Hne.
    rewrite mount_truthy by (by eapply truthy_nonempty); simpl.
    apply is_true_literal_spec.
  - destruct (truthy (ls !! LOCAL_STORAGE_USER_ID_KEY)) eqn:Ht.
    + rewrite mount_truthy by done; simpl.
      intros Hv. by apply is_true_literal_spec in Hv.
    + rewrite mount_falsy by done. done.
Qed.

End Session.

(** * The properties at concrete states *)

Section Examples.
#[local] Existing Instance example_keys.



Lemma request_success_keeps_error_witness :
  currentAuthFlowState otp_step_after_failure = request_otp /\
  narrow (tempEmail otp_step_after_failure) = Some "a@b.com" /\
  currentAuthFlowState (step otp_step_after_failure RequestSucceeded)
  = verify_otp /\
  appError (step otp_step_after_failure RequestSucceeded)
  = Some "Too many requests".
Proof.
  split; [reflexivity|]. split; [reflexivity|].
  apply (request_success_keeps_error otp_step_after_failure "a@b.com");
    reflexivity.
Defined.

(** C3, as stated, fails: with the empty string stored under the
    identifier key (and ["true"] under the flag key) the flow starts at
    the email step. *)
Lemma empty_stored_id_starts_at_email_input : ~ initialization_as_stated.
Proof.
  intros [Hinit _].
  destruct (Hinit stored_empty_id "" true eq_refl eq_refl) as [Hflow _].
  vm_compute in Hflow. discriminate Hflow.
Qed.

Lemma initialization_witness :
  stored_shouting_flag !! "userId" = Some "alice@example.com" /\
  currentAuthFlowState (mount stored_shouting_flag) = authenticated /\
  currentUserId (mount stored_shouting_flag) = Some "alice@example.com" /\
  currentAuthFlowState (mount stored_empty_id) = email_input /\
  snd (mount_logged production stored_shouting_flag)
  = ["userId"; "userVerified"] /\
  fst (mount_logged development stored_shouting_flag)
  = mount stored_shouting_flag.
Proof.
  split; [reflexivity|].
  destruct (initialization stored_shouting_flag)
    as (Hsome & _ & Hstate & Hreads & _).
  destruct (Hsome "alice@example.com" eq_refl ltac:(discriminate))
    as (Hf & Hu & _).
  destruct (initialization stored_empty_id) as (_ & Hnone & _).
  destruct (Hnone (or_intror eq_refl)) as (Hf' & _).
  exact (conj Hf (conj Hu (conj Hf' (conj Hreads (Hstate development))))).
Defined.

Lemma logout_clears_everything_witness :
  currentAuthFlowState signed_in = authenticated /\
  currentUserId signed_in = Some "alice@example.com" /\
  step signed_in Logout = initialState ∅.
Proof.
  split; [reflexivity|]. split; [reflexivity|].
  destruct (logout_clears_everything signed_in "alice@example.com"
              eq_refl eq_refl) as [-> _].
  apply (f_equal (mkApp None false None None email_input None)).
  apply map_eq. intros k. vm_compute.
  reflexivity.
Defined.

Lemma guard_recovers_to_email_input_witness :
  requires_email (currentAuthFlowState verify_step_without_email) = true /\
  tempEmail verify_step_without_email = None /\
  currentAuthFlowState (settle verify_step_without_email) = email_input /\
  appError (settle verify_step_without_email) = None.
Proof.
  split; [reflexivity|]. split; [reflexivity|].
  destruct (guard_recovers_to_email_input verify_step_without_email
              eq_refl eq_refl) as (_ & _ & Hflow & Herr & _).
  exact (conj Hflow Herr).
Defined.

Lemma email_threading_witness :
  currentAuthFlowState fresh = email_input /\
  tempEmail
    (run fresh [EmailSubmitted "a@b.com"; ChooseOtp; RequestFailed "try later";
                RequestSucceeded; Back; Back; ChoosePassword;
                LoginFailed "bad password"])
  = Some "a@b.com".
Proof.
  split; [reflexivity|].
  apply (email_threading "a@b.com" fresh); [reflexivity|].
  unfold run; simpl fold_left.
  repeat (apply threaded_step; [| by vm_compute | discriminate]).
  apply threaded_start.
Defined.

Lemma failure_keeps_step_witness :
  failure_event (currentAuthFlowState password_step) (LoginFailed "bad password")
  = Some "bad password" /\
  is_Some (narrow (tempEmail password_step)) /\
  currentAuthFlowState (step password_step (LoginFailed "bad password"))
  = login_with_password /\
  tempEmail (step password_step (LoginFailed "bad password")) = Some "x@y.com" /\
  appError (step password_step (LoginFailed "bad password"))
  = Some "bad password".
Proof.
  split; [reflexivity|]. split; [by eexists|].
  destruct (failure_keeps_step password_step (LoginFailed "bad password")
              "bad password" eq_refl (mk_is_Some _ _ eq_refl))
    as (_ & _ & Hflow & Hemail & Herr).
  exact (conj Hflow (conj Hemail Herr)).
Defined.

(** C8, as stated, fails: after [handleLoginSuccess] with the empty
    string as [id], mounting over what was stored finds no identity. *)
Lemma empty_id_is_not_loaded : ~ round_trip_as_stated.
Proof.
  intros Hrt.
  destruct Hrt as [Hrt _];
    [intros Hk; vm_compute in Hk; discriminate Hk|].
  destruct (Hrt nameless fresh) as (_ & Hid & _).
  vm_compute in Hid. discriminate Hid.
Qed.

Lemma session_round_trip_witness :
  LOCAL_STORAGE_USER_ID_KEY <> LOCAL_STORAGE_USER_VERIFIED_KEY /\
  UserResponse.id alice <> "" /\
  saved alice fresh !! "userVerified" = Some "true" /\
  currentUserId (mount (saved alice fresh)) = Some "alice@example.com" /\
  isUserVerified (mount (saved alice fresh)) = true.
Proof.
  assert (LOCAL_STORAGE_USER_ID_KEY <> LOCAL_STORAGE_USER_VERIFIED_KEY)
    as Hkeys by (intros Hk; vm_compute in Hk; discriminate Hk).
  assert (UserResponse.id alice <> "") as Hid0
    by (intros Hk; vm_compute in Hk; discriminate Hk).
  split; [exact Hkeys|]. split; [exact Hid0|].
  destruct (session_round_trip alice fresh Hkeys Hid0)
    as (Hflag & _ & _ & Hid & Hver & _).
  exact (conj Hflag (conj Hid Hver)).
Defined.

Lemma empty_email_resets_witness :
  currentAuthFlowState fresh = email_input /\
  currentAuthFlowState (step fresh (EmailSubmitted "")) = email_input /\
  tempEmail (step fresh (EmailSubmitted "")) = Some "".
Proof.
  split; [reflexivity|].
  destruct (empty_email_resets fresh) as (_ & _ & _ & _ & Hstep & _).
  exact (Hstep eq_refl).
Defined.

(** C10, as stated, fails: the identifier key is present, holding the
    empty string, the flag key holds ["true"], and [isUserVerified]
    after mounting is false. *)
Lemma empty_stored_id_is_not_verified : ~ strict_flag_as_stated.
Proof.
  intros Hstrict.
  destruct (Hstrict stored_empty_id (mk_is_Some _ _ eq_refl)) as [_ Hver].
  specialize (Hver eq_refl). vm_compute in Hver. discriminate Hver.
Qed.

Lemma strict_verified_flag_witness :
  stored_shouting_flag !! "userId" = Some "alice@example.com" /\
  isUserVerified (mount stored_shouting_flag) <> true.
Proof.
  split; [reflexivity|].
  destruct (strict_verified_flag stored_shouting_flag) as [Hiff _].
  intros Hver.
  apply (Hiff "alice@example.com" eq_refl ltac:(discriminate)) in Hver.
  vm_compute in Hver. discriminate Hver.
Defined.

End Examples.

(** * Further properties of [App] *)

Section Screens.
Context `{Constants}.

(** A second login success replaces the first one entirely, in memory
    and in [localStorage]: nothing of the earlier identity is left. *)
Theorem second_login_overwrites_first u1 u2 st :
  handleLoginSuccess u2 (handleLoginSuccess u1 st) = handleLoginSuccess u2 st.
Proof.
  destruct st as [u v d e f t ls].
  cbv [handleLoginSuccess andThen setCurrentUserId setIsUserVerified
       localStorage_setItem setCurrentAuthFlowState setAppError
       currentUserId isUserVerified lastAnalyzedDocumentId appError
       currentAuthFlowState tempEmail localStorage].
  apply (f_equal (mkApp _ _ _ _ _ _)), map_eq; intros k.
  rewrite !lookup_insert. repeat case_decide; done.
Qed.

(** The error banner shows the error exactly when it is a non-empty
    string: [appError = ""] is stored but displays nothing. *)
Theorem error_banner_shows_nonempty_error st m :
  errorBanner (snd (App_render st)) = Some m <-> appError st = Some m /\ m <> "".
Proof.
  assert (errorBanner (snd (App_render st))
          = if truthy (appError st) then appError st else None) as ->.
  { unfold App_render. destruct (negb _); [destruct (renderAuthFlow st)|]; done. }
  destruct (appError st) as [[|a s]|]; simpl; split; try done.
  - by intros [[= <-] Hne].
  - by intros [= <-].
  - by intros [? ?].
  - by intros [? ?].
Qed.

(** Once the guard has run, the main area is empty only in the
    [register_with_password] state, for which [renderAuthFlow] has no
    case. *)
Theorem blank_screen_only_in_register_step st :
  main (screen st) = AuthFlowSection None
  <-> currentAuthFlowState st = register_with_password.
Proof.
  destruct st as [u v d e f [[|a s]|] ls]; destruct f; simpl; split; done.
Qed.

(** Whatever the state, [handleLogout] followed by a reload starts at the
    email step with no identity: both keys are gone from [localStorage]. *)
Theorem logout_then_reload_starts_clean st :
  mount (localStorage (handleLogout st))
  = initialState (localStorage (handleLogout st)) /\
  localStorage (handleLogout st) !! LOCAL_STORAGE_USER_ID_KEY = None /\
  localStorage (handleLogout st) !! LOCAL_STORAGE_USER_VERIFIED_KEY = None.
Proof.
  assert (localStorage (handleLogout st) !! LOCAL_STORAGE_USER_ID_KEY = None)
    as Hid.
  { simpl. rewrite lookup_delete. case_decide; [done|]. apply lookup_delete_eq. }
  split; [|split; [done|apply lookup_delete_eq]].
  apply mount_falsy. by rewrite Hid.
Qed.

(** Every step card on screen was given the current [tempEmail], which is
    then a non-empty string. *)
Theorem card_email_is_tempEmail st c e :
  snd (renderAuthFlow st) = Some c ->
  card_email c = Some e ->
  tempEmail st = Some e /\ e <> "" /\ fst (renderAuthFlow st) = st.
Proof.
  unfold renderAuthFlow.
  destruct (currentAuthFlowState st); simpl; try done;
    destruct (narrow (tempEmail st)) eqn:Hn; simpl; try done;
    intros [= <-]; simpl; intros [= <-];
    destruct (narrow_Some _ _ Hn); done.
Qed.

End Screens.

Section Steps.
Context `{Constants}.

Lemma run_invariant (P : AppState -> Prop) st evs :
  P st -> (forall s ev, P s -> P (step s ev)) -> P (run st evs).
Proof.
  intros Hst Hstep. revert st Hst.
  induction evs as [|ev evs IH]; intros st Hst; [done|].
  apply IH, Hstep, Hst.
Qed.


(** From any step of the flow, three [Back]s end at the email step, with
    everything but the flow state untouched. *)
Theorem three_backs_reach_email_input st :
  is_authenticated (currentAuthFlowState st) = false ->
  currentAuthFlowState st <> register_with_password ->
  run st [Back; Back; Back] = setCurrentAuthFlowState email_input st.
Proof.
  destruct st as [u v d e f [[|a s]|] ls];
    destruct f; simpl; try done; intros _ _; reflexivity.
Qed.

(** Only [Logout] and a login or verification success touch the session:
    every other event leaves [localStorage], [currentUserId] and
    [isUserVerified] as they are. *)
Theorem only_login_and_logout_touch_session st ev :
  ev <> Logout ->
  success_identity ev = None ->
  localStorage (step st ev) = localStorage st /\
  currentUserId (step st ev) = currentUserId st /\
  isUserVerified (step st ev) = isUserVerified st.
Proof.
  intros Hev Hsucc.
  destruct st as [u v d e f [[|a s]|] ls];
    destruct f, ev as [[|? ?]| | | | | | | | | | | |];
    try discriminate Hsucc; done.
Qed.


(** After [DocumentAnalyzed d] in the authenticated state the history
    table is rendered with [lastAnalyzedDocumentId = d], for the same
    user, and the error banner is gone. *)
Theorem analyzed_document_reaches_history_table st d :
  currentAuthFlowState st = authenticated ->
  main (screen (step st (DocumentAnalyzed d)))
  = DocumentSections
      (DocumentAnalyzerCard.mk handleDocumentAnalyzed handleAnalysisError
         (currentUserId st) (isUserVerified st))
      (DocumentHistoryTable.mk (currentUserId st) (isUserVerified st) (Some d)) /\
  errorBanner (screen (step st (DocumentAnalyzed d))) = None.
Proof.
  destruct st as [u v dd e f t ls]; simpl; intros ->. done.
Qed.

End Steps.

Section Invariants.
Context `{Constants}.

Lemma mount_cases ls :
  (truthy (ls !! LOCAL_STORAGE_USER_ID_KEY) = true /\
   mount ls
   = mkApp (ls !! LOCAL_STORAGE_USER_ID_KEY)
           (is_true_literal (ls !! LOCAL_STORAGE_USER_VERIFIED_KEY))
           None None authenticated None ls) \/
  (truthy (ls !! LOCAL_STORAGE_USER_ID_KEY) = false /\
   mount ls = initialState ls).
Proof.
  destruct (truthy (ls !! LOCAL_STORAGE_USER_ID_KEY)) eqn:Ht.
  - left. split; [done|]. by apply mount_truthy.
  - right. split; [done|]. by apply mount_falsy.
Qed.

Lemma truthy_is_Some o : truthy o = true -> is_Some o.
Proof. destruct o; [by eexists|done]. Qed.

Lemma flow_invariant_mount ls : flow_invariant (mount ls).
Proof.
  destruct (mount_cases ls) as [[Ht ->]|[Ht ->]]; split; simpl; try done.
  by apply truthy_is_Some.
Qed.

Lemma flow_invariant_step st ev : flow_invariant st -> flow_invariant (step st ev).
Proof.
  unfold flow_invariant.
  destruct st as [u v d e f [[|a s]|] ls];
    destruct f, ev as [[|? ?]| | | | | | | | | | | |];
    intros [Hf Hi]; try done;
    (split; [done|]); try done; try (by eexists).
Qed.

(** The states a session goes through: from mounting over any
    [localStorage], by any sequence of events.  The flow is never at
    [register_with_password], so the main area is never empty once the
    guard has run. *)
Theorem register_step_is_never_entered ls evs :
  currentAuthFlowState (run (mount ls) evs) <> register_with_password /\
  main (screen (run (mount ls) evs)) <> AuthFlowSection None.
Proof.
  assert (flow_invariant (run (mount ls) evs)) as [Hf _]
    by (apply run_invariant;
        [apply flow_invariant_mount|apply flow_invariant_step]).
  split; [done|]. by rewrite blank_screen_only_in_register_step.
Qed.


(** ** Every state [App] can reach *)

Lemma settle_frame st :
  settle st = setCurrentAuthFlowState (currentAuthFlowState (settle st)) st.
Proof.
  unfold settle, App_render. destruct (negb _).
  - rewrite (surjective_pairing (renderAuthFlow st)); simpl.
    apply renderAuthFlow_frame.
  - by destruct st.
Qed.

Lemma settle_flow st :
  currentAuthFlowState (settle st) = currentAuthFlowState st \/
  currentAuthFlowState (settle st) = email_input.
Proof.
  destruct st as [u v d e f [[|a s]|] ls]; destruct f; simpl; auto.
Qed.

(** What is on screen only ever offers callbacks of [App]. *)
Lemma dispatch_callback st ev k :
  dispatch (screen st) ev = Some k -> callback k.
Proof.
  assert (ev = Logout \/ ev <> Logout) as [->|Hev]
    by (destruct ev; auto; by right).
  - rewrite logout_on_screen. intros [= <-]. constructor.
  - unfold screen. intros Hd.
    destruct (dispatch_card _ ev k Hev Hd) as [(_ & c & Hc & Hk)|[_ Hk]].
    + pose proof (rendered_callback _ c ev k Hc Hk) as Hcb.
      destruct ev; try done; try (subst k; by constructor).
      * destruct Hcb as [-> _]. constructor.
      * subst k. destruct (currentAuthFlowState (settle st)); by constructor.
    + destruct ev; try done; subst k; constructor.
Qed.

(** The states reached through the components on screen are among the
    reachable ones. *)
Lemma step_reachable ls st ev : reachable ls st -> reachable ls (step st ev).
Proof.
  intros Hst. unfold step.
  destruct (dispatch (screen st) ev) as [k|] eqn:Hd.
  - apply reachable_render, reachable_callback.
    + by apply reachable_render.
    + by eapply dispatch_callback.
  - by apply reachable_render.
Qed.

Lemma run_reachable ls evs : reachable ls (run (mount ls) evs).
Proof.
  apply run_invariant; [apply reachable_mount|].
  intros s ev. apply step_reachable.
Qed.

(** A callback other than [handleLoginSuccess] and [handleLogout] leaves
    the session alone and does not authenticate. *)
Lemma callback_session h st :
  callback h ->
  (currentUserId (h st) = currentUserId st /\
   isUserVerified (h st) = isUserVerified st /\
   localStorage (h st) = localStorage st /\
   (currentAuthFlowState (h st) = currentAuthFlowState st \/
    navigation_target (currentAuthFlowState (h st)) = true)) \/
  (exists u, h = handleLoginSuccess u) \/
  h = handleLogout.
Proof.
  intros [e|m|u| |d|f Hf]; try (left; destruct st; by auto).
  - right; left. by exists u.
  - right; by right.
Qed.

Lemma App_useEffect_cases st :
  (truthy (localStorage st !! LOCAL_STORAGE_USER_ID_KEY) = true /\
   App_useEffect st
   = setCurrentAuthFlowState authenticated
       (setIsUserVerified
          (is_true_literal (localStorage st !! LOCAL_STORAGE_USER_VERIFIED_KEY))
          (setCurrentUserId (localStorage st !! LOCAL_STORAGE_USER_ID_KEY) st))) \/
  (truthy (localStorage st !! LOCAL_STORAGE_USER_ID_KEY) = false /\
   App_useEffect st = setCurrentAuthFlowState email_input st).
Proof.
  unfold App_useEffect, localStorage_getItem, andThen.
  destruct (truthy (localStorage st !! LOCAL_STORAGE_USER_ID_KEY)); auto.
Qed.

(** Whatever the order in which callbacks arrive, late ones included, the
    authenticated state always has an identity, a true verified flag
    never stands without one, and the flow is never at
    [register_with_password]. *)
Theorem authenticated_has_identity ls st :
  reachable ls st ->
  (currentAuthFlowState st = authenticated -> is_Some (currentUserId st)) /\
  (isUserVerified st = true -> is_Some (currentUserId st)) /\
  currentAuthFlowState st <> register_with_password.
Proof.
  induction 1 as [|st Hst (IHa & IHv & IHr)|st h Hst (IHa & IHv & IHr) Hh
                  |st Hst (IHa & IHv & IHr)].
  - destruct (mount_cases ls) as [[Ht ->]|[Ht ->]]; simpl.
    + split; [intros _; by apply truthy_is_Some|].
      split; [intros _; by apply truthy_is_Some|done].
    + done.
  - destruct (App_useEffect_cases st) as [[Ht ->]|[Ht ->]]; simpl.
    + split; [intros _; by apply truthy_is_Some|].
      split; [intros _; by apply truthy_is_Some|done].
    + done.
  - destruct (callback_session h st Hh)
      as [(Hid & Hv & _ & Hf)|[[u ->]| ->]].
    + rewrite Hid, Hv. split; [|split; [done|]].
      * intros Ha. destruct Hf as [Hf|Hf]; rewrite Ha in Hf; [|done].
        by apply IHa.
      * destruct Hf as [Hf|Hf]; [by rewrite Hf|].
        intros Hr. by rewrite Hr in Hf.
    + split; [intros _; by eexists|]. split; [intros _; by eexists|done].
    + done.
  - rewrite settle_frame; simpl.
    destruct (settle_flow st) as [Hf|Hf]; rewrite Hf; done.
Qed.






End Invariants.

Section LoginScreen.
Context `{Constants}.

(** After a login success the document sections are on screen, fed with
    the identifier and flag just received, whatever they are (an empty
    identifier included), and the error banner is gone. *)
Theorem login_success_shows_documents u st :
  let st' := handleLoginSuccess u st in
  settle st' = st' /\
  main (screen st')
  = DocumentSections
      (DocumentAnalyzerCard.mk handleDocumentAnalyzed handleAnalysisError
         (Some (UserResponse.id u)) (UserResponse.is_verified u))
      (DocumentHistoryTable.mk (Some (UserResponse.id u))
         (UserResponse.is_verified u) (lastAnalyzedDocumentId st)) /\
  errorBanner (screen st') = None /\
  Sidebar.currentUserId (sidebar (screen st')) = Some (UserResponse.id u) /\
  Sidebar.isUserVerified (sidebar (screen st')) = UserResponse.is_verified u.
Proof. done. Qed.

End LoginScreen.

(** * The earlier [App] *)

Section Legacy.
Context `{Constants}.

Lemma legacy_step_keeps_storage st ev :
  LegacyApp.localStorage (LegacyApp.step st ev) = LegacyApp.localStorage st.
Proof.
  destruct st as [u d e ls]. unfold LegacyApp.step, LegacyApp.App_render; simpl.
  destruct (truthy u), ev; done.
Qed.

Lemma legacy_run_keeps_storage st evs :
  LegacyApp.localStorage (LegacyApp.run st evs) = LegacyApp.localStorage st.
Proof.
  unfold LegacyApp.run. revert st.
  induction evs as [|ev evs IH]; intros st; [done|].
  simpl. rewrite IH. apply legacy_step_keeps_storage.
Qed.

(** The earlier [App] reads [localStorage] on mount and never writes it:
    after any events, a logout included, a reload gives the state of the
    first mount again, so a stored user is signed back in. *)
Theorem legacy_reload_undoes_logout ls evs :
  LegacyApp.localStorage (LegacyApp.run (LegacyApp.mount ls) evs) = ls /\
  LegacyApp.mount (LegacyApp.localStorage (LegacyApp.run (LegacyApp.mount ls) evs))
  = LegacyApp.mount ls /\
  LegacyApp.mount
    (LegacyApp.localStorage (LegacyApp.handleLogout (LegacyApp.mount ls)))
  = LegacyApp.mount ls.
Proof.
  assert (LegacyApp.localStorage (LegacyApp.mount ls) = ls) as Hm.
  { unfold LegacyApp.mount, LegacyApp.App_useEffect,
      LegacyApp.localStorage_getItem; simpl.
    by destruct (truthy _). }
  rewrite legacy_run_keeps_storage, Hm. split; [done|]. split; [done|].
  change (LegacyApp.localStorage (LegacyApp.handleLogout (LegacyApp.mount ls)))
    with (LegacyApp.localStorage (LegacyApp.mount ls)).
  by rewrite Hm.
Qed.

(** The earlier [App] shows the register/login card exactly while
    [currentUserId] is falsy: a login success with the empty string as
    identifier leaves the card on screen, any other one brings up the
    document sections. *)
Theorem legacy_login_card_while_no_user st :
  (LegacyApp.main (LegacyApp.App_render st)
   = LegacyApp.RegisterLoginSection
       (LegacyApp.RegisterLoginCard.mk
          LegacyApp.handleLoginSuccess LegacyApp.handleAnalysisError)
   <-> truthy (LegacyApp.currentUserId st) = false) /\
  (forall userId,
      LegacyApp.main
        (LegacyApp.App_render (LegacyApp.handleLoginSuccess userId st))
      = LegacyApp.RegisterLoginSection
          (LegacyApp.RegisterLoginCard.mk
             LegacyApp.handleLoginSuccess LegacyApp.handleAnalysisError)
      <-> userId = "").
Proof.
  split.
  - unfold LegacyApp.App_render; simpl.
    destruct (truthy (LegacyApp.currentUserId st)); simpl; split; done.
  - intros userId. unfold LegacyApp.App_render; simpl.
    destruct userId; simpl; split; done.
Qed.

(** Both versions read the session the same way: over any
    [localStorage] they mount with the same [currentUserId], and the new
    one is authenticated exactly when there is one.  A store holding the
    identifier alone, as the earlier version's era left it, mounts
    unverified. *)
Theorem mount_agrees_with_legacy ls :
  currentUserId (mount ls) = LegacyApp.currentUserId (LegacyApp.mount ls) /\
  (currentAuthFlowState (mount ls) = authenticated
   <-> truthy (LegacyApp.currentUserId (LegacyApp.mount ls)) = true) /\
  (ls !! LOCAL_STORAGE_USER_VERIFIED_KEY = None ->
   isUserVerified (mount ls) = false).
Proof.
  unfold LegacyApp.mount, LegacyApp.App_useEffect,
    LegacyApp.localStorage_getItem; simpl.
  destruct (mount_cases ls) as [[Ht ->]|[Ht ->]]; rewrite Ht; simpl.
  - split; [done|]. split; [done|]. by intros ->.
  - split; [done|]. split; [done|]. done.
Qed.

End Legacy.

(** * The further properties at concrete states *)

Section MoreExamples.
#[local] Existing Instance example_keys.

Lemma card_email_is_tempEmail_witness :
  snd (renderAuthFlow verify_step)
  = Some (OtpVerification
            (OtpVerificationCard.mk "a@b.com" handleLoginSuccess
               handleAnalysisError (setCurrentAuthFlowState request_otp))) /\
  tempEmail verify_step = Some "a@b.com".
Proof.
  split; [reflexivity|].
  apply (card_email_is_tempEmail verify_step _ "a@b.com" eq_refl eq_refl).
Defined.

Lemma three_backs_reach_email_input_witness :
  is_authenticated (currentAuthFlowState verify_step) = false /\
  run verify_step [Back; Back; Back]
  = mkApp None false None (Some "code expired") email_input (Some "a@b.com") ∅.
Proof.
  split; [reflexivity|].
  apply (three_backs_reach_email_input verify_step eq_refl).
  discriminate.
Defined.

Lemma only_login_and_logout_touch_session_witness :
  success_identity (RequestFailed "try later") = None /\
  localStorage (step signed_in (AnalysisError "too large"))
  = localStorage signed_in /\
  currentUserId (step otp_step_after_failure (RequestFailed "try later")) = None.
Proof.
  split; [reflexivity|].
  destruct (only_login_and_logout_touch_session signed_in
              (AnalysisError "too large") ltac:(discriminate) eq_refl)
    as (Hls & _).
  destruct (only_login_and_logout_touch_session otp_step_after_failure
              (RequestFailed "try later") ltac:(discriminate) eq_refl)
    as (_ & Hid & _).
  exact (conj Hls Hid).
Defined.


Lemma analyzed_document_reaches_history_table_witness :
  currentAuthFlowState signed_in = authenticated /\
  errorBanner (screen signed_in) = Some "analysis failed" /\
  errorBanner (screen (step signed_in (DocumentAnalyzed "doc-2"))) = None.
Proof.
  split; [reflexivity|]. split; [reflexivity|].
  apply (analyzed_document_reaches_history_table signed_in "doc-2" eq_refl).
Defined.

Lemma authenticated_has_identity_witness :
  reachable ∅
    (handleDocumentAnalyzed "alice-doc"
       (run (mount ∅)
          [EmailSubmitted "alice@example.com"; ChoosePassword;
           LoginSucceeded alice; Logout])) /\
  isUserVerified
    (handleDocumentAnalyzed "alice-doc"
       (run (mount ∅)
          [EmailSubmitted "alice@example.com"; ChoosePassword;
           LoginSucceeded alice; Logout]))
  <> true.
Proof.
  assert (reachable ∅
            (handleDocumentAnalyzed "alice-doc"
               (run (mount ∅)
                  [EmailSubmitted "alice@example.com"; ChoosePassword;
                   LoginSucceeded alice; Logout]))) as Hreach
    by (apply reachable_callback; [apply run_reachable|constructor]).
  split; [exact Hreach|].
  destruct (authenticated_has_identity _ _ Hreach) as (_ & Hver & _).
  intros Htrue. destruct (Hver Htrue) as [uid Huid].
  vm_compute in Huid. discriminate Huid.
Defined.


Lemma mount_agrees_with_legacy_witness :
  stored_legacy_session !! LOCAL_STORAGE_USER_VERIFIED_KEY = None /\
  currentUserId (mount stored_legacy_session) = Some "bob@example.com" /\
  isUserVerified (mount stored_legacy_session) = false.
Proof.
  split; [reflexivity|].
  destruct (mount_agrees_with_legacy stored_legacy_session) as (Hid & _ & Hver).
  split; [rewrite Hid; reflexivity|exact (Hver eq_refl)].
Defined.

End MoreExamples.
